(** * Strata marketplace-ui: the bounty detail view and the mint selector

    A shallow embedding of
      - [packages/marketplace-ui/components/bounties/BountyDetail.tsx]
        ([AsyncQtyButton]; of [BountyDetail], the derived values, the
        attributes, the early returns, the validation and the action of
        the button, the mode link and the sections of the detail);
      - [packages/marketplace-ui/components/form/MintSelect.tsx]
        (the handlers of the input, the Wallet button, the keydown
        listener and the token search overlay, and the overlay's state).

    The components are React function components: one render is a pure
    function of the values its hooks return, and the handlers it builds
    are closures over those values.  A render is modelled as a function
    of a record of hook values; a handler is a function to the sequence of
    calls it makes on its collaborators (the SDK, the callbacks). *)

From Stdlib Require Import ZArith Bool List String Ascii Floats Lia.
Import ListNotations.

(** * The ECMAScript values the components compute with *)

Module JS.

Local Open Scope Z_scope.

(** A JS [number] is an IEEE-754 binary64 value: Rocq's primitive
    [float], whose operations are the same binary64 operations. *)
Definition number : Set := float.

Definition NaN : number := nan.

(** [ToBoolean] on a number: [+0], [-0] and [NaN] are falsy. *)
Definition truthy (x : number) : bool := negb (is_zero x || is_nan x).

(** [x < y] on numbers: false as soon as one side is [NaN]. *)
Definition lt (x y : number) : bool := (x <? y)%float.

(** [x > y] is [y < x] with the operands evaluated left to right. *)
Definition gt (x y : number) : bool := lt y x.

Definition neg (x : number) : number := (- x)%float.
Definition sub (x y : number) : number := (x - y)%float.

(** [ToBoolean] on a value of type [T | undefined] (or [T | null]),
    given [ToBoolean] on [T]. *)
Definition truthy_opt {T : Type} (t : T -> bool) (x : option T) : bool :=
  match x with
  | Some v => t v
  | None => false
  end.

(** [ToBoolean] on a string: only the empty string is falsy. *)
Definition truthy_string (s : string) : bool :=
  match s with
  | EmptyString => false
  | String _ _ => true
  end.

(** ** [Number(s)] on a string: ECMAScript's StringToNumber

    Strings are sequences of 8-bit code units here, so the white space
    of [StrWhiteSpaceChar] is TAB, LF, VT, FF, CR, SP and NBSP. *)

Definition is_white_space (c : ascii) : bool :=
  match N_of_ascii c with
  | 9 | 10 | 11 | 12 | 13 | 32 | 160 => true
  | _ => false
  end%N.

Fixpoint trim_start (l : list ascii) : list ascii :=
  match l with
  | c :: r => if is_white_space c then trim_start r else l
  | [] => []
  end.

Definition trim (l : list ascii) : list ascii :=
  rev (trim_start (rev (trim_start l))).

(** The value of a digit in a radix up to 16. *)
Definition digit_value (radix : Z) (c : ascii) : option Z :=
  let n := Z.of_N (N_of_ascii c) in
  let v :=
    if (48 <=? n) && (n <=? 57) then n - 48
    else if (97 <=? n) && (n <=? 102) then n - 87
    else if (65 <=? n) && (n <=? 70) then n - 55
    else radix in
  if v <? radix then Some v else None.

(** The longest prefix of digits: its value continuing from [acc], how
    many digits it has, and what follows it. *)
Fixpoint digits (radix acc : Z) (count : nat) (l : list ascii)
  : Z * nat * list ascii :=
  match l with
  | c :: r =>
      match digit_value radix c with
      | Some v => digits radix (acc * radix + v) (S count) r
      | None => (acc, count, l)
      end
  | [] => (acc, count, [])
  end.

(** A literal read as [mantissa * 10 ^ exponent], or an infinity. *)
Inductive literal : Set :=
| Lit (mantissa exponent : Z)
| LitInfinity.

(** [ExponentPart]: absent (the literal ends), or [e]/[E], an optional
    sign and at least one digit, up to the end of the literal. *)
Definition exponent_part (l : list ascii) : option Z :=
  match l with
  | [] => Some 0
  | c :: r =>
      if (Ascii.eqb c "e" || Ascii.eqb c "E")%char then
        let '(sign, r') :=
          match r with
          | s :: r' =>
              if Ascii.eqb s "-" then (-1, r')
              else if Ascii.eqb s "+" then (1, r')
              else (1, r)
          | [] => (1, r)
          end in
        match digits 10 0 0 r' with
        | (v, S _, []) => Some (sign * v)
        | _ => None
        end
      else None
  end.

(** [StrUnsignedDecimalLiteral]. *)
Definition unsigned_decimal (l : list ascii) : option literal :=
  if list_eq_dec ascii_dec l (list_ascii_of_string "Infinity")
  then Some LitInfinity
  else
    let '(ip, ni, r1) := digits 10 0 0 l in
    match r1 with
    | "."%char :: r2 =>
        let '(m, n, r3) := digits 10 ip ni r2 in
        match n with
        | O => None
        | S _ =>
            match exponent_part r3 with
            | Some e => Some (Lit m (e - Z.of_nat (n - ni)))
            | None => None
            end
        end
    | _ =>
        match ni with
        | O => None
        | S _ =>
            match exponent_part r1 with
            | Some e => Some (Lit ip e)
            | None => None
            end
        end
    end.

(** [NonDecimalIntegerLiteral]: [0x], [0o] or [0b] and digits to the end. *)
Definition non_decimal (l : list ascii) : option literal :=
  match l with
  | "0"%char :: p :: r =>
      let radix :=
        if (Ascii.eqb p "x" || Ascii.eqb p "X")%char then 16
        else if (Ascii.eqb p "o" || Ascii.eqb p "O")%char then 8
        else if (Ascii.eqb p "b" || Ascii.eqb p "B")%char then 2
        else 0 in
      if radix =? 0 then None
      else
        match digits radix 0 0 r with
        | (v, S _, []) => Some (Lit v 0)
        | _ => None
        end
  | _ => None
  end.

(** [StringNumericLiteral] after trimming: the sign and the literal.
    [None] when the string is not a numeric literal. *)
Definition StringNumericLiteral (s : string) : option (bool * literal) :=
  match trim (list_ascii_of_string s) with
  | [] => Some (false, Lit 0 0)
  | (c :: r) as l =>
      match non_decimal l with
      | Some v => Some (false, v)
      | None =>
          let '(sign, u) :=
            if Ascii.eqb c "-" then (true, r)
            else if Ascii.eqb c "+" then (false, r)
            else (false, l) in
          match unsigned_decimal u with
          | Some v => Some (sign, v)
          | None => None
          end
      end
  end.

(** The binary64 value nearest to [n / d] (ties to even), for positive
    [n] and [d]: the quotient is taken with 1200 bits more than [d] has,
    a last bit records a remainder, and the 53-bit rounding is left to
    [binary_normalize]. *)
Definition round_ratio (sign : bool) (n d : Z) : number :=
  let k := Z.log2 d + 1200 in
  let '(q, r) := Z.div_eucl (n * 2 ^ k) d in
  let q := if r =? 0 then q else Z.lor q 1 in
  SF2Prim (binary_normalize prec emax (if sign then - q else q) (- k) sign).

(** The number value of [mantissa * 10 ^ exponent].  Beyond the two
    cut-offs the value is above the largest, or below half the smallest,
    binary64 magnitude, and no power of ten is computed. *)
Definition number_of_decimal (sign : bool) (m e : Z) : number :=
  if m =? 0 then (if sign then neg_zero else zero)
  else if 400 <? e then (if sign then neg_infinity else infinity)
  else if e + Z.log2 m + 1 <? - 400 then (if sign then neg_zero else zero)
  else if 0 <=? e then round_ratio sign (m * 10 ^ e) 1
  else round_ratio sign m (10 ^ (- e)).

Definition Number (s : string) : number :=
  match StringNumericLiteral s with
  | Some (sign, Lit m e) => number_of_decimal sign m e
  | Some (sign, LitInfinity) => if sign then neg_infinity else infinity
  | None => NaN
  end.

End JS.

(** * Collaborators outside the repository *)

Module Solana.

Local Open Scope Z_scope.

(** [PublicKey] of [@solana/web3.js]: a 32-byte address. *)
Definition PublicKey : Set := list Byte.byte.

(** The base-58 rendering of a byte string (the alphabet and algorithm
    of [bs58], which [PublicKey.toBase58] applies to the key's bytes).
    The components take the rendering as a parameter; this one serves
    as an instance. *)
Definition alphabet : string :=
  "123456789ABCDEFGHJKLMNPQRSTUVWXYZabcdefghijkmnopqrstuvwxyz".

Definition big_endian (bs : list Byte.byte) : Z :=
  fold_left (fun acc b => acc * 256 + Z.of_N (Byte.to_N b)) bs 0.

Definition symbol (d : Z) : string :=
  match String.get (Z.to_nat d) alphabet with
  | Some c => String c EmptyString
  | None => EmptyString
  end.

Fixpoint base58_digits (fuel : nat) (n : Z) (acc : string) : string :=
  match fuel with
  | O => acc
  | S fuel' =>
      if n =? 0 then acc
      else base58_digits fuel' (n / 58) (symbol (n mod 58) ++ acc)
  end.

Fixpoint leading_zeros (bs : list Byte.byte) : string :=
  match bs with
  | Byte.x00 :: r => String "1" (leading_zeros r)
  | _ => EmptyString
  end.

Definition base58 (bs : list Byte.byte) : string :=
  (leading_zeros bs
   ++ base58_digits (8 * List.length bs) (big_endian bs) EmptyString)%string.

End Solana.

(** * [AsyncQtyButton] *)

Module AsyncQtyButton.

Import JS.

Section Button.

(** What the action does: the calls it makes on its collaborators. *)
Variable call : Type.

Record Props : Type := {
  action : number -> list call;
  validate : option (number -> option string);
  children : string
}.

Variable props : Props.

(** The state [qty], the text of the input. *)
Variable qty : string.

(** [validate && validate({ quantity: Number(qty) })]; [None] stands
    for [null] and for [undefined]. *)
Definition validation : option string :=
  match validate props with
  | Some v => v (Number qty)
  | None => None
  end.

(** [isDisabled={validation ? true : false}] *)
Definition isDisabled : bool :=
  if truthy_opt truthy_string validation then true else false.

(** [{validation ? validation : children}] *)
Definition label : string :=
  match validation with
  | Some msg => if truthy_string msg then msg else children props
  | None => children props
  end.

(** [action={() => action({ quantity: Number(qty) })}] *)
Definition onClick : list call := action props (Number qty).

End Button.

Arguments action {call} _ _.
Arguments validate {call} _.
Arguments children {call} _.
Arguments validation {call} _ _.
Arguments isDisabled {call} _ _.
Arguments label {call} _ _.
Arguments onClick {call} _ _.

End AsyncQtyButton.

(** * [BountyDetail] *)

Module BountyDetail.

Import JS.
Import Solana.

(** [MintInfo] of [@solana/spl-token], as far as it is read. *)
Record MintInfo : Set := {
  supply : Z;
  decimals : Z
}.

(** The token bonding record ([ITokenBonding]), as far as it is read. *)
Record TokenBonding : Set := {
  publicKey : PublicKey;
  targetMint : PublicKey;
  baseMint : PublicKey;
  reserveAuthority : option PublicKey
}.

(** The pricing object of [useBondingPricing] ([BondingPricing]). *)
Record BondingPricing : Set := {
  buyWithBaseAmount : number -> number;
  sellTargetAmount : number -> number
}.

(** The calls on [tokenBondingSdk], with their argument objects. *)
Inductive SdkCall : Set :=
| sell (targetAmount : number) (tokenBonding : option PublicKey)
       (slippage : number)
| buy (baseAmount : number) (tokenBonding : option PublicKey)
      (slippage : number).

Definition slippage_of (c : SdkCall) : number :=
  match c with
  | sell _ _ s => s
  | buy _ _ s => s
  end.

(** What one render reads from its hooks and its state. *)
Record Hooks : Set := {
  tokenBonding : option TokenBonding;   (* useTokenBondingFromMint: info *)
  bondingLoading : bool;                (* useTokenBondingFromMint: loading *)
  connected : bool;                     (* useWallet *)
  walletKey : option PublicKey;         (* useWallet: publicKey *)
  targetMintInfo : option MintInfo;     (* useMint(tokenBonding?.targetMint) *)
  pricing : option BondingPricing;      (* useBondingPricing *)
  tokenBondingSdk : bool;               (* useStrataSdks: is the handle there *)
  baseBalance : option number;          (* useOwnedAmount(baseMint) *)
  targetBalance : option number;        (* useOwnedAmount(targetMint) *)
  reserveAmount : option number;        (* useReserveAmount *)
  isWithdraw : bool                     (* useState(false) *)
}.

(** An object or [undefined]: truthy when it is there. *)
Definition present {T : Type} (x : option T) : bool :=
  truthy_opt (fun _ => true) x.

(** [!x] for [x : number | undefined]. *)
Definition not_number (x : option number) : bool :=
  negb (truthy_opt truthy x).

(** [ToNumber] on [number | undefined]: [undefined] becomes [NaN]. *)
Definition ToNumber (x : option number) : number :=
  match x with
  | Some v => v
  | None => NaN
  end.

(** [tokenBonding?.publicKey] *)
Definition bondingKey (h : Hooks) : option PublicKey :=
  option_map publicKey (tokenBonding h).

Section Render.

(** [toNumber] of [@strata-foundation/spl-token-bonding]: a [u64]
    amount of a mint as a number. *)
Variable toNumber : Z -> MintInfo -> number.

Variable h : Hooks.

(** The [useMemo] of [fundsUsed]; a function that falls off its end
    returns [undefined]. *)
Definition fundsUsed : option number :=
  match targetMintInfo h, pricing h, reserveAmount h with
  | Some mint, Some _, Some reserve =>
      Some (sub (toNumber (supply mint) mint) reserve)
  | _, _, _ => None
  end.

(** [!!fundsUsed && (fundsUsed > 0)] *)
Definition fundsHaveBeenUsed_of (fundsUsed : option number) : bool :=
  negb (not_number fundsUsed) && gt (ToNumber fundsUsed) zero.

Definition fundsHaveBeenUsed : bool := fundsHaveBeenUsed_of fundsUsed.

(** [!tokenBonding && !bondingLoading] *)
Definition bountyClosed : bool :=
  negb (present (tokenBonding h)) && negb (bondingLoading h).

(** The [validate] closure handed to [AsyncQtyButton]. *)
Definition validate (quantity : number) : option string :=
  if isWithdraw h then
    match pricing h with
    | Some p =>
        let actualQuantity := neg (buyWithBaseAmount p (neg quantity)) in
        if not_number (targetBalance h)
           || lt (ToNumber (targetBalance h)) actualQuantity
        then Some "Insufficient funds"%string
        else if negb (connected h) then Some "Connect Wallet"%string
        else None
    | None => None
    end
  else
    if not_number (baseBalance h)
       || lt (ToNumber (baseBalance h)) quantity
    then Some "Insufficient funds"%string
    else if negb (connected h) then Some "Connect Wallet"%string
    else None.

(** [tokenBondingSdk?.m(args)]: the call is made when the handle is
    there, and nothing is evaluated when it is not. *)
Definition optional_call (c : SdkCall) : list SdkCall :=
  if tokenBondingSdk h then [c] else [].

(** [isWithdraw && pricing] *)
Definition withdraw_pricing : option BondingPricing :=
  if isWithdraw h then pricing h else None.

(** The [action] closure handed to [AsyncQtyButton]: the calls it
    awaits, in order. *)
Definition action (quantity : number) : list SdkCall :=
  match withdraw_pricing with
  | Some p =>
      optional_call
        (sell (neg (buyWithBaseAmount p (neg quantity))) (bondingKey h) zero)
  | None =>
      if negb (isWithdraw h)
      then optional_call (buy quantity (bondingKey h) zero)
      else []
  end.

(** The props of the [AsyncQtyButton] the view renders. *)
Definition qtyButton : AsyncQtyButton.Props SdkCall := {|
  AsyncQtyButton.action := action;
  AsyncQtyButton.validate := Some validate;
  AsyncQtyButton.children :=
    if isWithdraw h then "Withdraw Funds"%string
    else "Contribute Funds"%string
|}.

End Render.

(** The three-way test that each branch of [validate] runs on its own
    balance and amount; facts about the two branches are stated once,
    on this shape. *)
Definition verdict (balance : option number) (amount : number)
           (connected : bool) : option string :=
  if not_number balance || lt (ToNumber balance) amount
  then Some "Insufficient funds"%string
  else if negb connected then Some "Connect Wallet"%string
  else None.

End BountyDetail.

(** * [MintSelect] *)

Module MintSelect.

Import Solana.

(** The token account of a search result, as far as it is read. *)
Record TokenAccount : Set := {
  mint : option PublicKey
}.

(** What [TokenSearch] hands to [onSelect]. *)
Record SearchResult : Set := {
  account : option TokenAccount
}.

(** The calls a handler makes: on the [onChange] prop, and on the
    [onClose] and [onOpen] of [useDisclosure]. *)
Inductive Call : Set :=
| onChange (i : string)
| onClose
| onOpen.

(** [useDisclosure]: what a call does to [isOpen]. *)
Definition disclosure (isOpen : bool) (c : Call) : bool :=
  match c with
  | onChange _ => isOpen
  | onClose => false
  | onOpen => true
  end.

Definition isOpen_after (isOpen : bool) (calls : list Call) : bool :=
  fold_left disclosure calls isOpen.

(** The values the [onChange] prop received, in order. *)
Fixpoint changes (calls : list Call) : list string :=
  match calls with
  | onChange i :: r => i :: changes r
  | _ :: r => changes r
  | [] => []
  end.

Section Handlers.

(** [PublicKey.toBase58] of [@solana/web3.js]. *)
Variable toBase58 : PublicKey -> string.

(** [t.account?.mint] *)
Definition account_mint (t : SearchResult) : option PublicKey :=
  match account t with
  | Some a => mint a
  | None => None
  end.

(** The [onSelect] handed to [TokenSearch]. *)
Definition onSelect (t : SearchResult) : list Call :=
  match account_mint t with
  | Some m => [onChange (toBase58 m); onClose]
  | None => []
  end.

(** The [keydown] listener. *)
Definition escFunction (key : string) : list Call :=
  if String.eqb key "Escape" then [onClose] else [].

(** The [onClick] of the Wallet button. *)
Definition onWalletClick (isOpen : bool) : list Call :=
  if isOpen then [onClose] else [onOpen].

End Handlers.

End MintSelect.

(** * Concrete renders, used to run the definitions *)

Module Examples.

Import JS Solana BountyDetail.

Local Open Scope float_scope.

Definition key (b : Byte.byte) : PublicKey := repeat b 32.

Definition bonding : TokenBonding := {|
  publicKey := key Byte.x01;
  targetMint := key Byte.x02;
  baseMint := key Byte.x03;
  reserveAuthority := Some (key Byte.x04)
|}.

(** A curve that prices one target token at one base token. *)
Definition flat : BondingPricing := {|
  buyWithBaseAmount := fun baseAmount => baseAmount;
  sellTargetAmount := fun targetAmount => targetAmount
|}.

(** A curve with [buyWithBaseAmount(-5) = -7]. *)
Definition steep : BondingPricing := {|
  buyWithBaseAmount := fun baseAmount => baseAmount * 7 / 5;
  sellTargetAmount := fun targetAmount => targetAmount * 5 / 7
|}.

(** An amount in whole tokens: [amount / 10 ^ decimals], rounded. *)
Definition wholeTokens (amount : Z) (m : MintInfo) : number :=
  if (amount =? 0)%Z then zero
  else round_ratio false amount (10 ^ decimals m).

Definition mint9 : MintInfo := {| supply := 25000000000; decimals := 9 |}.

(** A connected wallet holding 100 base tokens and 10 target tokens. *)
Definition funded (withdraw : bool) (p : option BondingPricing) : Hooks := {|
  tokenBonding := Some bonding;
  bondingLoading := false;
  connected := true;
  walletKey := Some (key Byte.x05);
  targetMintInfo := Some mint9;
  pricing := p;
  tokenBondingSdk := true;
  baseBalance := Some 100;
  targetBalance := Some 10;
  reserveAmount := Some 20;
  isWithdraw := withdraw
|}.

(** A connected wallet that holds nothing. *)
Definition empty_wallet (withdraw : bool) : Hooks := {|
  tokenBonding := Some bonding;
  bondingLoading := false;
  connected := true;
  walletKey := Some (key Byte.x05);
  targetMintInfo := Some mint9;
  pricing := Some flat;
  tokenBondingSdk := true;
  baseBalance := Some 0;
  targetBalance := Some 0;
  reserveAmount := Some 20;
  isWithdraw := withdraw
|}.

(** No wallet connected, withdraw mode, the pricing not loaded yet. *)
Definition disconnected_loading : Hooks := {|
  tokenBonding := Some bonding;
  bondingLoading := false;
  connected := false;
  walletKey := None;
  targetMintInfo := Some mint9;
  pricing := None;
  tokenBondingSdk := true;
  baseBalance := None;
  targetBalance := None;
  reserveAmount := Some 20;
  isWithdraw := true
|}.

(** The same holdings in withdraw mode, priced, the wallet not
    connected. *)
Definition disconnected_funded : Hooks := {|
  tokenBonding := Some bonding;
  bondingLoading := false;
  connected := false;
  walletKey := None;
  targetMintInfo := Some mint9;
  pricing := Some flat;
  tokenBondingSdk := true;
  baseBalance := Some 100;
  targetBalance := Some 10;
  reserveAmount := Some 20;
  isWithdraw := true
|}.

(** The funded, connected wallet of [funded], the pricing loaded, while
    [useStrataSdks] has not produced the handle yet. *)
Definition no_handle (withdraw : bool) : Hooks := {|
  tokenBonding := Some bonding;
  bondingLoading := false;
  connected := true;
  walletKey := Some (key Byte.x05);
  targetMintInfo := Some mint9;
  pricing := Some steep;
  tokenBondingSdk := false;
  baseBalance := Some 100;
  targetBalance := Some 10;
  reserveAmount := Some 20;
  isWithdraw := withdraw
|}.

(** The first render: nothing has loaded. *)
Definition still_loading : Hooks := {|
  tokenBonding := None;
  bondingLoading := true;
  connected := false;
  walletKey := None;
  targetMintInfo := None;
  pricing := None;
  tokenBondingSdk := false;
  baseBalance := None;
  targetBalance := None;
  reserveAmount := None;
  isWithdraw := false
|}.

(** A result of the token search with a mint, one without an account,
    and one whose account has no mint. *)
Definition found : MintSelect.SearchResult :=
  {| MintSelect.account := Some {| MintSelect.mint := Some (key Byte.x00) |} |}.

Definition no_account : MintSelect.SearchResult :=
  {| MintSelect.account := None |}.

Definition no_mint : MintSelect.SearchResult :=
  {| MintSelect.account := Some {| MintSelect.mint := None |} |}.

End Examples.

(** * The rest of the [BountyDetail] render *)

Module BountyView.

Import JS Solana BountyDetail.

(** The value of an attribute: [string | number]. *)
Inductive Value : Set :=
| VString (s : string)
| VNumber (n : number).


(** An entry of [targetData.attributes]. *)
Record Attribute : Set := {
  trait_type : option string;
  value : Value
}.

(** The off-chain data of the target token ([targetData]), as far as it
    is read. *)
Record TokenData : Set := {
  data_description : option string;
  data_attributes : option (list Attribute)
}.







(** The [tokenBonding] argument of a call on the SDK. *)
Definition bonding_of (c : SdkCall) : option PublicKey :=
  match c with
  | sell _ k _ => k
  | buy _ k _ => k
  end.


(** The props of [BountyDetail]. *)
Record Props : Set := {
  mintKey : option PublicKey;
  name : string;
  description : string;
  image : string
}.

(** What one render reads from the two [useTokenMetadata] hooks. *)
Record Metadata : Set := {
  targetImage : option string;        (* image, of the target mint *)
  targetName : option string;         (* targetMetadata?.data.name *)
  targetData : option TokenData;      (* data, of the target mint *)
  targetMetaLoading : bool;           (* loading, of the target mint *)
  baseSymbol : option string;         (* baseMetadata?.data.symbol *)
  metadataLoading : bool              (* loading, of the base mint *)
}.

(** [x || d] for [x : string | undefined] and a string [d]. *)
Definition or_string (x : option string) (d : string) : string :=
  match x with
  | Some s => if truthy_string s then s else d
  | None => d
  end.

(** What the view finally is: the two early returns, or the detail. *)
Inductive Screen : Set :=
| NotFound
| Spinner
| Detail.

Section View.

Variable props : Props.
Variable meta : Metadata.
Variable h : Hooks.

(** [name = targetMetadata?.data.name || name], and so on. *)
Definition shownName : string := or_string (targetName meta) (name props).
Definition shownImage : string := or_string (targetImage meta) (image props).
Definition shownDescription : string :=
  or_string
    (match targetData meta with
     | Some d => data_description d
     | None => None
     end)
    (description props).

(** [!name && !image && !description] *)
Definition dataMissing : bool :=
  negb (truthy_string shownName) && negb (truthy_string shownImage)
  && negb (truthy_string shownDescription).

Definition screen : Screen :=
  if negb (metadataLoading meta) && dataMissing then NotFound
  else if dataMissing then Spinner
  else Detail.

(** [Number.prototype.toString], used by the template literals. *)
Variable numberToString : number -> string.





(** [PublicKey.equals] of [@solana/web3.js]. *)
Variable equals : PublicKey -> PublicKey -> bool.

(** [publicKey && tokenBonding?.reserveAuthority?.equals(publicKey)]:
    [None] for [null] and [undefined]. *)
Definition isAdmin : option bool :=
  match walletKey h with
  | Some k =>
      match tokenBonding h with
      | Some tb =>
          match reserveAuthority tb with
          | Some authority => Some (equals authority k)
          | None => None
          end
      | None => None
      end
  | None => None
  end.

(** The [DisburseFunds] element and its [tokenBondingKey], when it is
    rendered: inside [!bountyClosed && ...], under
    [isAdmin && tokenBonding && ...]. *)
Definition disburseFunds : option (option PublicKey) :=
  if negb (bountyClosed h) then
    if truthy_opt (fun b : bool => b) isAdmin && present (tokenBonding h)
    then Some (bondingKey h)
    else None
  else None.

(** The [BurnButton] and its [mintKey], when it is rendered: inside
    [bountyClosed && ...], under [mintKey && ...]. *)
Definition burnButton : option PublicKey :=
  if bountyClosed h then mintKey props else None.

(** The amount of the "My Contributions" card. *)
Definition myContributions : option number :=
  match targetBalance h with
  | None => None
  | Some balance =>
      match pricing h with
      | Some p => Some (sellTargetAmount p balance)
      | None => None
      end
  end.

(** The label of the link under the button. *)
Definition toggleLabel : string :=
  if isWithdraw h then "Contribute Funds"%string
  else "Withdraw Funds"%string.

(** [onClick={() => setIsWithdraw(!isWithdraw)}]: the hooks of the next
    render, the other hooks returning what they did. *)
Definition onToggle : Hooks := {|
  tokenBonding := tokenBonding h;
  bondingLoading := bondingLoading h;
  connected := connected h;
  walletKey := walletKey h;
  targetMintInfo := targetMintInfo h;
  pricing := pricing h;
  tokenBondingSdk := tokenBondingSdk h;
  baseBalance := baseBalance h;
  targetBalance := targetBalance h;
  reserveAmount := reserveAmount h;
  isWithdraw := negb (isWithdraw h)
|}.

End View.

End BountyView.

(** * The events of [MintSelect] *)

Module MintSelectEvents.

Import Solana MintSelect.

(** What the user can do to the component. *)
Inductive Event : Set :=
| Typed (text : string)           (* the input's onChange *)
| WalletClick                     (* the Wallet button's onClick *)
| KeyDown (key : string)          (* keydown on the document *)
| Selected (t : SearchResult).    (* the overlay's onSelect *)

(** Whether the element an event comes from is in the render: the input
    and its button under [!isOpen], the overlay under [isOpen], the
    [keydown] listener always. *)
Definition rendered (isOpen : bool) (e : Event) : bool :=
  match e with
  | Typed _ => negb isOpen
  | WalletClick => negb isOpen
  | KeyDown _ => true
  | Selected _ => isOpen
  end.

Section Steps.

Variable toBase58 : PublicKey -> string.

(** [onChange={(e) => onChange(e.target.value)}] *)
Definition onInput (text : string) : list Call := [onChange text].

(** The calls of the handler of an event. *)
Definition handle (isOpen : bool) (e : Event) : list Call :=
  match e with
  | Typed text => onInput text
  | WalletClick => onWalletClick isOpen
  | KeyDown key => escFunction key
  | Selected t => onSelect toBase58 t
  end.

(** [isOpen] in the render after an event. *)
Definition step (isOpen : bool) (e : Event) : bool :=
  if rendered isOpen e then isOpen_after isOpen (handle isOpen e)
  else isOpen.

(** From the first render ([useDisclosure] starts closed), through a
    sequence of events. *)
Definition run (events : list Event) : bool := fold_left step events false.

(** Every value the [onChange] prop receives along a sequence of events. *)
Fixpoint reported (isOpen : bool) (events : list Event) : list string :=
  match events with
  | e :: r =>
      (if rendered isOpen e then changes (handle isOpen e) else [])
      ++ reported (step isOpen e) r
  | [] => []
  end.

End Steps.

End MintSelectEvents.

(** * More concrete renders *)

Module Samples.

Import JS Solana BountyDetail BountyView Examples.

Local Open Scope float_scope.
Local Open Scope string_scope.

Definition attribute (k : string) (v : string) : Attribute :=
  {| trait_type := Some k; value := VString v |}.

(** Two discussion links, an entry without a trait type between them. *)
Definition listed : list Attribute :=
  [ attribute "discussion" "https://forum.example/1";
    {| trait_type := None; value := VString "stray" |};
    attribute "contact" "bounties@example.org";
    attribute "" "untitled";
    attribute "discussion" "https://forum.example/2" ].

Definition offchain : TokenData :=
  {| data_description := Some "Fix the indexer"; data_attributes := Some listed |}.

Definition loaded : Metadata := {|
  targetImage := Some "https://img.example/bounty.png";
  targetName := Some "Indexer bounty";
  targetData := Some offchain;
  targetMetaLoading := false;
  baseSymbol := Some "SOL";
  metadataLoading := false
|}.


(** Nothing known about the token, the base metadata still loading or
    not. *)
Definition unknown (loading : bool) : Metadata := {|
  targetImage := None;
  targetName := None;
  targetData := None;
  targetMetaLoading := true;
  baseSymbol := None;
  metadataLoading := loading
|}.

Definition bare : Props :=
  {| mintKey := Some (key Byte.x02); name := ""; description := ""; image := "" |}.

Definition named : Props :=
  {| mintKey := Some (key Byte.x02); name := "My bounty"; description := "";
     image := "" |}.

(** Equality of keys, byte by byte. *)
Definition same_key (a b : PublicKey) : bool :=
  if list_eq_dec Byte.byte_eq_dec a b then true else false.

(** The wallet of the reserve authority of [bonding], connected. *)
Definition authority_wallet : Hooks := {|
  tokenBonding := Some bonding;
  bondingLoading := false;
  connected := true;
  walletKey := Some (key Byte.x04);
  targetMintInfo := Some mint9;
  pricing := Some flat;
  tokenBondingSdk := true;
  baseBalance := Some 100;
  targetBalance := Some 10;
  reserveAmount := Some 20;
  isWithdraw := false
|}.

(** The record gone and loaded: the bounty is closed. *)
Definition closed_bounty : Hooks := {|
  tokenBonding := None;
  bondingLoading := false;
  connected := true;
  walletKey := Some (key Byte.x04);
  targetMintInfo := None;
  pricing := None;
  tokenBondingSdk := true;
  baseBalance := None;
  targetBalance := Some 10;
  reserveAmount := None;
  isWithdraw := false
|}.

End Samples.

(** * Facts about binary64 comparisons *)

Section Binary64.

Import JS.

Lemma nan_spec (x : number) : is_nan x = true -> Prim2SF x = S754_nan.
Proof. intros H. unfold Prim2SF. now rewrite H. Qed.

Lemma not_nan_spec (x : number) :
  is_nan x = false -> Prim2SF x <> S754_nan.
Proof.
  intros H. unfold Prim2SF. rewrite H.
  destruct (is_zero x); [discriminate|].
  destruct (is_infinity x); [discriminate|].
  destruct (Z.frexp x) as [r e].
  destruct (shr_fexp _ _ _ _ _) as [m e'].
  destruct (shr_m m); discriminate.
Qed.

Lemma SFcompare_antisym (x y : spec_float) :
  SFcompare y x = option_map CompOpp (SFcompare x y).
Proof.
  destruct x as [s|s| |s m e], y as [t|t| |t n f]; simpl;
    try reflexivity; try (now destruct s); try (now destruct t);
    try (now destruct s, t).
  pose proof (Pos.compare_cont_antisym m n Eq) as A. simpl in A.
  rewrite (Z.compare_antisym e f), <- A.
  destruct s, t; try reflexivity; destruct (e ?= f)%Z; simpl;
    try reflexivity; now rewrite CompOpp_involutive.
Qed.

Lemma SFcompare_total (x y : spec_float) :
  x <> S754_nan -> y <> S754_nan -> exists c, SFcompare x y = Some c.
Proof.
  destruct x as [s|s| |s m e], y as [t|t| |t n f]; intros Hx Hy;
    try easy; simpl; eauto.
Qed.

(** A comparison with [NaN] on either side is false. *)
Lemma lt_nan_r (x q : number) : is_nan q = true -> lt x q = false.
Proof.
  intros H. unfold lt. rewrite ltb_spec, (nan_spec q H).
  now destruct (Prim2SF x).
Qed.

Lemma lt_nan_l (x q : number) : is_nan q = true -> lt q x = false.
Proof.
  intros H. unfold lt. rewrite ltb_spec, (nan_spec q H). reflexivity.
Qed.

Lemma neg_nan (q : number) : is_nan q = true -> is_nan (neg q) = true.
Proof.
  intros H. unfold neg, is_nan.
  rewrite eqb_spec, opp_spec, (nan_spec q H). reflexivity.
Qed.

(** A number above zero is neither a zero nor [NaN]. *)
Lemma positive_truthy (x : number) : gt x zero = true -> truthy x = true.
Proof.
  unfold gt, lt, truthy, is_zero, is_nan.
  rewrite ltb_spec, !eqb_spec.
  change (Prim2SF zero) with (S754_zero false).
  destruct (Prim2SF x) as [s|s| |s m e] eqn:E; unfold SFltb, SFeqb; simpl;
    try discriminate.
  - now destruct s.
  - destruct s; [discriminate|]. intros _.
    now rewrite Z.compare_refl, Pos.compare_cont_refl.
Qed.

(** [x <= 0] excludes [x > 0]. *)
Lemma nonpositive_not_gt (x : number) :
  (x <=? zero)%float = true -> gt x zero = false.
Proof.
  unfold gt, lt. rewrite ltb_spec, leb_spec.
  change (Prim2SF zero) with (S754_zero false).
  destruct (Prim2SF x) as [s|s| |s m e]; unfold SFltb, SFleb; simpl;
    try reflexivity; now destruct s.
Qed.

(** Between two numbers, [x < y] fails exactly when [y <= x]. *)
Lemma not_lt_le (x y : number) :
  is_nan x = false -> is_nan y = false ->
  lt x y = false -> (y <=? x)%float = true.
Proof.
  intros Hx Hy. unfold lt. rewrite ltb_spec, leb_spec.
  unfold SFltb, SFleb. rewrite (SFcompare_antisym (Prim2SF x) (Prim2SF y)).
  apply not_nan_spec in Hx, Hy.
  destruct (SFcompare_total _ _ Hx Hy) as [c ->].
  now destruct c.
Qed.

End Binary64.

(** * The derived values of [BountyDetail] *)

Section DerivedValues.

Import JS BountyDetail Examples.

Local Open Scope float_scope.

(** C6. [bountyClosed] is true if and only if no bonding record is
    present and loading has completed; whenever loading is true it is
    false, whether or not a record is present. *)
Theorem bountyClosed_iff (h : Hooks) :
  (bountyClosed h = true <->
     tokenBonding h = None /\ bondingLoading h = false)
  /\ (bondingLoading h = true -> bountyClosed h = false).
Proof.
  unfold bountyClosed, present, truthy_opt.
  destruct (tokenBonding h) as [tb|], (bondingLoading h); simpl;
    repeat split; intros; try easy; now destruct H.
Qed.

Lemma bountyClosed_iff_witness :
  bondingLoading still_loading = true
  /\ bountyClosed still_loading = false.
Proof.
  split; [reflexivity|].
  apply (proj2 (bountyClosed_iff still_loading)). reflexivity.
Defined.

(** C7, as the spec has it, fails: the target mint (with its supply)
    and the reserve amount are both available, the pricing object is
    not, and [fundsUsed] is [undefined]. *)
Lemma fundsUsed_without_pricing :
  targetMintInfo (funded false None) = Some mint9
  /\ reserveAmount (funded false None) = Some 20
  /\ fundsUsed wholeTokens (funded false None) = None.
Proof. repeat split. Qed.

(** C7, amended. Whenever the target mint, the pricing object and the
    reserve amount are all three available, [fundsUsed] is the mint's
    total supply as a number minus the reserve amount; when one of the
    three is unavailable, [fundsUsed] is [undefined]. *)
Theorem fundsUsed_spec (toNumber : Z -> MintInfo -> number) (h : Hooks) :
  (forall mint p reserve,
      targetMintInfo h = Some mint -> pricing h = Some p ->
      reserveAmount h = Some reserve ->
      fundsUsed toNumber h
      = Some (sub (toNumber (supply mint) mint) reserve))
  /\ (targetMintInfo h = None \/ pricing h = None \/ reserveAmount h = None ->
      fundsUsed toNumber h = None).
Proof.
  unfold fundsUsed. split.
  - intros mint p reserve -> -> ->. reflexivity.
  - intros [-> | [-> | ->]]; [reflexivity | |].
    + now destruct (targetMintInfo h).
    + now destruct (targetMintInfo h), (pricing h).
Qed.

Lemma fundsUsed_spec_witness :
  fundsUsed wholeTokens (funded false (Some flat))
  = Some (sub (wholeTokens 25000000000 mint9) 20)
  /\ fundsUsed wholeTokens (funded true None) = None.
Proof.
  split.
  - apply (proj1 (fundsUsed_spec wholeTokens (funded false (Some flat)))
             mint9 flat 20); reflexivity.
  - apply (proj2 (fundsUsed_spec wholeTokens (funded true None))).
    right; left; reflexivity.
Defined.

(** Twenty-five tokens minted against a reserve of twenty: five used. *)
Example fundsUsed_five :
  fundsUsed wholeTokens (funded false (Some flat)) = Some 5.
Proof. vm_compute. reflexivity. Qed.

(** C8. [fundsHaveBeenUsed] is true if and only if [fundsUsed] is
    defined and strictly greater than zero; it is false when
    [fundsUsed] is undefined or at most zero. *)
Theorem fundsHaveBeenUsed_iff (used : option number) :
  (fundsHaveBeenUsed_of used = true <->
     exists x, used = Some x /\ gt x zero = true)
  /\ fundsHaveBeenUsed_of None = false
  /\ (forall x, used = Some x -> (x <=? zero) = true ->
      fundsHaveBeenUsed_of used = false).
Proof.
  unfold fundsHaveBeenUsed_of, not_number, truthy_opt, ToNumber.
  repeat split.
  - destruct used as [x|]; [|discriminate].
    intros H. apply andb_true_iff in H. exists x. now split.
  - intros (x & -> & H). rewrite negb_involutive.
    now rewrite (positive_truthy x H), H.
  - intros x -> H. rewrite (nonpositive_not_gt x H). apply andb_false_r.
Qed.

Lemma fundsHaveBeenUsed_iff_witness :
  (-3 <=? zero) = true /\ fundsHaveBeenUsed_of (Some (-3)) = false.
Proof.
  split; [reflexivity|].
  apply (proj2 (proj2 (fundsHaveBeenUsed_iff (Some (-3)))) (-3));
    reflexivity.
Defined.

(** The flag of a render is that function of the render's [fundsUsed]. *)
Lemma fundsHaveBeenUsed_unfold toNumber h :
  fundsHaveBeenUsed toNumber h = fundsHaveBeenUsed_of (fundsUsed toNumber h).
Proof. reflexivity. Qed.

End DerivedValues.

(** * The validation and the action of the contribute / withdraw button *)

Section Validation.

Import JS BountyDetail Examples.

Local Open Scope float_scope.
Local Open Scope string_scope.

(** The balance test [!balance || balance < amount], spelled out. *)
Lemma balance_test (balance : option number) (amount : number) :
  not_number balance || lt (ToNumber balance) amount = true <->
  balance = None
  \/ exists b, balance = Some b /\ (truthy b = false \/ lt b amount = true).
Proof.
  unfold not_number, truthy_opt, ToNumber.
  destruct balance as [b|]; simpl.
  - rewrite orb_true_iff, negb_true_iff. split.
    + intros H. right. now exists b.
    + intros [H | (b' & [= <-] & H)]; [discriminate | exact H].
  - split; [now left | reflexivity].
Qed.

Lemma validate_contribute_verdict (h : Hooks) (q : number) :
  isWithdraw h = false ->
  validate h q = verdict (baseBalance h) q (connected h).
Proof. intros H. unfold validate. now rewrite H. Qed.

Lemma validate_withdraw_verdict (h : Hooks) (p : BondingPricing) (q : number) :
  isWithdraw h = true -> pricing h = Some p ->
  validate h q
  = verdict (targetBalance h) (neg (buyWithBaseAmount p (neg q)))
            (connected h).
Proof. intros H P. unfold validate. now rewrite H, P. Qed.

Lemma verdict_insufficient balance amount c :
  verdict balance amount c = Some "Insufficient funds" <->
  not_number balance || lt (ToNumber balance) amount = true.
Proof.
  unfold verdict.
  destruct (not_number balance || lt (ToNumber balance) amount).
  - easy.
  - destruct (negb c); easy.
Qed.

Lemma verdict_disconnected balance amount :
  verdict balance amount false = Some "Insufficient funds"
  \/ verdict balance amount false = Some "Connect Wallet".
Proof.
  unfold verdict.
  destruct (not_number balance || lt (ToNumber balance) amount);
    [now left | now right].
Qed.

(** With [NaN] as the amount the comparison is false, and only the
    balance's own truthiness and the connection are looked at. *)
Lemma verdict_nan balance amount c :
  is_nan amount = true ->
  verdict balance amount c
  = if not_number balance then Some "Insufficient funds"
    else if negb c then Some "Connect Wallet"
    else None.
Proof.
  intros H. unfold verdict. rewrite (lt_nan_r _ amount H).
  now rewrite orb_false_r.
Qed.

(** A passing verdict on an amount that is a number: the balance is a
    number at least as large. *)
Lemma verdict_passes balance amount c :
  verdict balance amount c = None -> is_nan amount = false ->
  exists b, balance = Some b /\ (amount <=? b)%float = true.
Proof.
  unfold verdict, not_number, truthy_opt, ToNumber.
  destruct balance as [b|]; simpl; [|discriminate].
  destruct (truthy b) eqn:T; simpl; [|discriminate].
  destruct (lt b amount) eqn:L; [discriminate|].
  intros _ Hq. exists b. split; [reflexivity|].
  apply not_lt_le; try assumption.
  unfold truthy in T. apply negb_true_iff, orb_false_iff in T. apply T.
Qed.

(** C3, as the spec has it, fails: a base balance of zero is present
    and is not below a quantity of zero (the quantity of the empty
    input), and the contribute validation still answers
    "Insufficient funds". *)
Lemma contribute_zero_balance_blocked :
  isWithdraw (empty_wallet false) = false
  /\ baseBalance (empty_wallet false) = Some 0%float
  /\ Number "" = 0%float
  /\ lt 0 (Number "") = false
  /\ (Number "" <=? 0)%float = true
  /\ validate (empty_wallet false) (Number "") = Some "Insufficient funds".
Proof. vm_compute. repeat split. Qed.

(** C3, amended. In contribute mode, for every quantity [q], the
    validation answers "Insufficient funds" exactly when the base
    balance is absent, is zero or [NaN] (falsy), or is strictly less
    than [q]; when it passes a quantity that is a number, the base
    balance is at least that quantity; with base balance 100 and
    quantity 50 on a connected wallet it passes. *)
Theorem validate_contribute (h : Hooks) (q : number) :
  isWithdraw h = false ->
  (validate h q = Some "Insufficient funds" <->
     baseBalance h = None
     \/ exists b, baseBalance h = Some b
                  /\ (truthy b = false \/ lt b q = true))
  /\ (validate h q = None -> is_nan q = false ->
      exists b, baseBalance h = Some b /\ (q <=? b)%float = true)
  /\ (baseBalance h = Some 100%float -> connected h = true ->
      validate h 50 = None).
Proof.
  intros W. rewrite !(validate_contribute_verdict h _ W).
  repeat split.
  - intros H. now apply verdict_insufficient, balance_test in H.
  - intros H. eapply verdict_insufficient, balance_test, H.
  - apply verdict_passes.
  - intros -> ->. reflexivity.
Qed.

Lemma validate_contribute_witness :
  isWithdraw (funded false None) = false
  /\ validate (funded false None) 50 = None.
Proof.
  split; [reflexivity|].
  apply (proj2 (proj2 (validate_contribute (funded false None) 50 eq_refl)));
    reflexivity.
Defined.

(** C2, as the spec has it, fails: a target balance of zero is present
    and is not below the computed amount of zero, and the withdraw
    validation still answers "Insufficient funds". *)
Lemma withdraw_zero_balance_blocked :
  isWithdraw (empty_wallet true) = true
  /\ pricing (empty_wallet true) = Some flat
  /\ targetBalance (empty_wallet true) = Some 0%float
  /\ lt 0 (neg (buyWithBaseAmount flat (neg (Number "")))) = false
  /\ validate (empty_wallet true) (Number "") = Some "Insufficient funds".
Proof. vm_compute. repeat split. Qed.

(** C2, amended. In withdraw mode with a pricing object present, for
    every quantity [q] the validation computes
    [actualQuantity = -buyWithBaseAmount(-q)] and answers
    "Insufficient funds" exactly when the target balance is absent, is
    zero or [NaN] (falsy), or is strictly less than [actualQuantity];
    with target balance 10, [buyWithBaseAmount(-5) = -7], quantity 5
    and a connected wallet, the validation passes. *)
Theorem validate_withdraw (h : Hooks) (p : BondingPricing) (q : number) :
  isWithdraw h = true -> pricing h = Some p ->
  (validate h q = Some "Insufficient funds" <->
     targetBalance h = None
     \/ exists b, targetBalance h = Some b
                  /\ (truthy b = false
                      \/ lt b (neg (buyWithBaseAmount p (neg q))) = true))
  /\ (targetBalance h = Some 10%float ->
      buyWithBaseAmount p (neg 5) = neg 7 ->
      connected h = true ->
      validate h 5 = None).
Proof.
  intros W P. rewrite !(validate_withdraw_verdict h p _ W P).
  repeat split.
  - intros H. now apply verdict_insufficient, balance_test in H.
  - intros H. eapply verdict_insufficient, balance_test, H.
  - intros -> -> ->. reflexivity.
Qed.

Lemma validate_withdraw_witness :
  isWithdraw (funded true (Some steep)) = true
  /\ buyWithBaseAmount steep (neg 5) = neg 7
  /\ validate (funded true (Some steep)) 5 = None.
Proof.
  split; [reflexivity|]. split; [reflexivity|].
  apply (proj2 (validate_withdraw (funded true (Some steep)) steep 5
                  eq_refl eq_refl)); reflexivity.
Defined.

End Validation.

Section Connection.

Import JS BountyDetail Examples.

Local Open Scope float_scope.
Local Open Scope string_scope.

(** C4, as the spec has it, fails: in withdraw mode with no pricing
    object, a disconnected wallet gets no blocking message. *)
Lemma disconnected_withdraw_passes :
  connected disconnected_loading = false
  /\ isWithdraw disconnected_loading = true
  /\ validate disconnected_loading 3 = None.
Proof. repeat split. Qed.

(** C4, amended. In contribute mode, and in withdraw mode when a
    pricing object is available, for every quantity: if the wallet is
    not connected the validation returns a blocking string message and
    never passes; the message is "Insufficient funds" when the balance
    test of the mode fails (the balance is absent, zero or [NaN], or
    below the amount) and "Connect Wallet" otherwise. *)
Theorem validate_disconnected (h : Hooks) (q : number) :
  connected h = false ->
  isWithdraw h = false \/ pricing h <> None ->
  validate h q <> None
  /\ (validate h q = Some "Insufficient funds" \/
      validate h q = Some "Connect Wallet")
  /\ (validate h q = Some "Connect Wallet" <->
      validate h q <> Some "Insufficient funds")
  /\ (isWithdraw h = false ->
      validate h q
      = if not_number (baseBalance h) || lt (ToNumber (baseBalance h)) q
        then Some "Insufficient funds"
        else Some "Connect Wallet")
  /\ (forall p, isWithdraw h = true -> pricing h = Some p ->
      validate h q
      = if not_number (targetBalance h)
           || lt (ToNumber (targetBalance h))
                 (neg (buyWithBaseAmount p (neg q)))
        then Some "Insufficient funds"
        else Some "Connect Wallet").
Proof.
  intros C M.
  assert (exists balance amount,
             validate h q = verdict balance amount false)
    as (balance & amount & E).
  { destruct (isWithdraw h) eqn:W.
    - destruct (pricing h) as [p|] eqn:P.
      + rewrite (validate_withdraw_verdict h p q W P), C. eauto.
      + now destruct M.
    - rewrite (validate_contribute_verdict h q W), C. eauto. }
  split; [|split; [|split; [|split]]].
  - rewrite E. now destruct (verdict_disconnected balance amount) as [-> | ->].
  - rewrite E. apply verdict_disconnected.
  - rewrite E.
    destruct (verdict_disconnected balance amount) as [-> | ->]; now split.
  - intros W. rewrite (validate_contribute_verdict h q W), C. reflexivity.
  - intros p W P. rewrite (validate_withdraw_verdict h p q W P), C.
    reflexivity.
Qed.

Lemma validate_disconnected_witness :
  connected disconnected_funded = false
  /\ pricing disconnected_funded <> None
  /\ validate disconnected_funded 5 = Some "Connect Wallet"
  /\ validate disconnected_funded 50 = Some "Insufficient funds".
Proof.
  assert (pricing disconnected_funded <> None) as P by discriminate.
  split; [reflexivity|]. split; [exact P|]. split.
  - apply (proj2 (proj1 (proj2 (proj2
             (validate_disconnected disconnected_funded 5 eq_refl
                (or_intror P)))))).
    discriminate.
  - apply (proj2 (proj2 (proj2 (proj2
             (validate_disconnected disconnected_funded 50 eq_refl
                (or_intror P))))) flat eq_refl eq_refl).
Defined.

(** C10. In withdraw mode with no pricing object, the validation
    returns [null] for every quantity, whatever the target balance and
    whether or not the wallet is connected, so the submit control is
    not disabled, whatever the input holds. *)
Theorem validate_withdraw_no_pricing (h : Hooks) (q : number) :
  isWithdraw h = true -> pricing h = None ->
  validate h q = None
  /\ forall qty, AsyncQtyButton.isDisabled (qtyButton h) qty = false.
Proof.
  intros W P.
  assert (forall x, validate h x = None) as V.
  { intros x. unfold validate. now rewrite W, P. }
  split; [apply V|].
  intros qty. unfold AsyncQtyButton.isDisabled, AsyncQtyButton.validation.
  simpl. now rewrite V.
Qed.

Lemma validate_withdraw_no_pricing_witness :
  connected disconnected_loading = false
  /\ targetBalance disconnected_loading = None
  /\ validate disconnected_loading 1000 = None
  /\ AsyncQtyButton.isDisabled (qtyButton disconnected_loading) "1000"
     = false.
Proof.
  split; [reflexivity|]. split; [reflexivity|].
  split;
    [ apply (validate_withdraw_no_pricing disconnected_loading 1000
               eq_refl eq_refl)
    | apply (proj2 (validate_withdraw_no_pricing disconnected_loading 1000
                      eq_refl eq_refl)) ].
Defined.

End Connection.

Section NotANumber.

Import JS BountyDetail Examples.

Local Open Scope float_scope.
Local Open Scope string_scope.

(** A string that is not a numeric literal becomes [NaN]. *)
Lemma Number_not_numeric (s : string) :
  StringNumericLiteral s = None -> Number s = NaN.
Proof. intros H. unfold Number. now rewrite H. Qed.

(** The validation memo hands [Number(qty)] to [validate]. *)
Lemma validation_qtyButton (h : Hooks) (qty : string) :
  AsyncQtyButton.validation (qtyButton h) qty = validate h (Number qty).
Proof. reflexivity. Qed.

(** C5, as the spec has it, fails: "abc" is not numeric, the quantity
    is [NaN], and the validation passes it in contribute mode and in
    withdraw mode, leaving the submit control enabled. *)
Lemma nan_quantity_passes :
  StringNumericLiteral "abc" = None
  /\ is_nan (Number "abc") = true
  /\ AsyncQtyButton.validation (qtyButton (funded false (Some flat))) "abc"
     = None
  /\ AsyncQtyButton.validation (qtyButton (funded true (Some flat))) "abc"
     = None
  /\ AsyncQtyButton.isDisabled (qtyButton (funded false (Some flat))) "abc"
     = false.
Proof. vm_compute. repeat split. Qed.

(** C5, amended. For every quantity input string that is not a numeric
    literal, the quantity passed to validation is [NaN]; the validation
    has no test for [NaN] and a comparison with [NaN] is false, so in
    contribute mode it answers "Insufficient funds" only when the base
    balance is absent, zero or [NaN], otherwise "Connect Wallet" when
    the wallet is not connected, and otherwise passes; in withdraw mode
    with a pricing object whose result at [NaN] is [NaN], the same on
    the target balance. *)
Theorem validate_not_numeric (h : Hooks) (qty : string) :
  StringNumericLiteral qty = None ->
  is_nan (Number qty) = true
  /\ AsyncQtyButton.validation (qtyButton h) qty = validate h (Number qty)
  /\ (isWithdraw h = false ->
      validate h (Number qty)
      = if not_number (baseBalance h) then Some "Insufficient funds"
        else if negb (connected h) then Some "Connect Wallet"
        else None)
  /\ (forall p, isWithdraw h = true -> pricing h = Some p ->
      is_nan (buyWithBaseAmount p (neg (Number qty))) = true ->
      validate h (Number qty)
      = if not_number (targetBalance h) then Some "Insufficient funds"
        else if negb (connected h) then Some "Connect Wallet"
        else None).
Proof.
  intros H. split; [now rewrite (Number_not_numeric qty H)|].
  split; [reflexivity|].
  rewrite (Number_not_numeric qty H). split.
  - intros W. rewrite (validate_contribute_verdict h _ W).
    now apply verdict_nan.
  - intros p W P N. rewrite (validate_withdraw_verdict h p _ W P).
    now apply verdict_nan, neg_nan.
Qed.

Lemma validate_not_numeric_witness :
  StringNumericLiteral "12 tokens" = None
  /\ is_nan (Number "12 tokens") = true
  /\ validate (funded false None) (Number "12 tokens") = None.
Proof.
  split; [reflexivity|].
  split;
    [ apply (validate_not_numeric (funded false None) "12 tokens" eq_refl)
    | apply (proj1 (proj2 (proj2 (validate_not_numeric (funded false None)
                                    "12 tokens" eq_refl)))); reflexivity ].
Defined.

End NotANumber.

(** * The action of the contribute / withdraw button *)

Section Dispatch.

Import JS BountyDetail Examples.

Local Open Scope float_scope.
Local Open Scope string_scope.

Lemma optional_call_present (h : Hooks) (c : SdkCall) :
  tokenBondingSdk h = true -> optional_call h c = [c].
Proof. intros S. unfold optional_call. now rewrite S. Qed.

Lemma optional_call_slippage (h : Hooks) (c c' : SdkCall) :
  In c' (optional_call h c) -> slippage_of c' = slippage_of c.
Proof.
  unfold optional_call. destruct (tokenBondingSdk h); simpl.
  - now intros [<- | []].
  - intros [].
Qed.

(** C1, as the spec has it, fails: the SDK handle is reached through
    [?.], and while it is not there the action calls neither [sell] (in
    withdraw mode with a pricing object) nor [buy] (in contribute mode),
    although the validation has passed. *)
Lemma action_without_handle :
  tokenBondingSdk (no_handle true) = false
  /\ isWithdraw (no_handle true) = true
  /\ pricing (no_handle true) = Some steep
  /\ validate (no_handle true) 5 = None
  /\ action (no_handle true) 5 = []
  /\ isWithdraw (no_handle false) = false
  /\ validate (no_handle false) 50 = None
  /\ action (no_handle false) 50 = [].
Proof. repeat split. Qed.

(** C1, amended. For every quantity [q], when the SDK handle is there:
    in withdraw mode with a pricing object the action calls [sell] on it
    with [targetAmount = -buyWithBaseAmount(-q)]; in contribute mode it
    calls [buy] with [baseAmount = q]; it makes that one call and no
    other.  When the handle is not there it makes no call.  The slippage
    of every call it makes is exactly 0. *)
Theorem action_dispatch (h : Hooks) (q : number) :
  (forall p, isWithdraw h = true -> pricing h = Some p ->
      tokenBondingSdk h = true ->
      action h q
      = [sell (neg (buyWithBaseAmount p (neg q))) (bondingKey h) 0])
  /\ (isWithdraw h = false -> tokenBondingSdk h = true ->
      action h q = [buy q (bondingKey h) 0])
  /\ (forall c, In c (action h q) -> slippage_of c = 0)
  /\ (forall qty, AsyncQtyButton.onClick (qtyButton h) qty
                  = action h (Number qty))
  /\ (tokenBondingSdk h = false -> action h q = []).
Proof.
  unfold action, withdraw_pricing. repeat split.
  - intros p -> -> S. now apply optional_call_present.
  - intros -> S. now apply optional_call_present.
  - intros c. destruct (isWithdraw h); [destruct (pricing h) as [p|]|];
      simpl; try easy; intros H;
      now rewrite (optional_call_slippage _ _ _ H).
  - intros S. unfold optional_call. rewrite S.
    destruct (isWithdraw h); [destruct (pricing h)|]; reflexivity.
Qed.

Lemma action_dispatch_witness :
  action (funded true (Some steep)) 5
  = [sell 7 (Some (key Byte.x01)) 0]
  /\ AsyncQtyButton.onClick (qtyButton (funded false None)) "50"
     = [buy 50 (Some (key Byte.x01)) 0]
  /\ action (no_handle true) 5 = [].
Proof.
  split; [|split].
  - apply (proj1 (action_dispatch (funded true (Some steep)) 5) steep);
      reflexivity.
  - rewrite (proj1 (proj2 (proj2 (proj2
               (action_dispatch (funded false None) 50)))) "50").
    apply (proj1 (proj2 (action_dispatch (funded false None) (Number "50"))));
      reflexivity.
  - apply (proj2 (proj2 (proj2 (proj2
             (action_dispatch (no_handle true) 5))))).
    reflexivity.
Defined.

(** In withdraw mode without a pricing object the action makes no call. *)
Lemma action_withdraw_no_pricing (h : Hooks) (q : number) :
  isWithdraw h = true -> pricing h = None -> action h q = [].
Proof. intros W P. unfold action, withdraw_pricing. now rewrite W, P. Qed.

(** The two end-to-end runs of the spec, from the text of the input. *)
Example contribute_fifty :
  AsyncQtyButton.validation (qtyButton (funded false None)) "50" = None
  /\ AsyncQtyButton.isDisabled (qtyButton (funded false None)) "50" = false
  /\ AsyncQtyButton.label (qtyButton (funded false None)) "50"
     = "Contribute Funds"
  /\ AsyncQtyButton.onClick (qtyButton (funded false None)) "50"
     = [buy 50 (Some (key Byte.x01)) 0].
Proof. vm_compute. repeat split. Qed.

Example withdraw_five :
  AsyncQtyButton.validation (qtyButton (funded true (Some steep))) "5" = None
  /\ AsyncQtyButton.label (qtyButton (funded true (Some steep))) "5"
     = "Withdraw Funds"
  /\ AsyncQtyButton.onClick (qtyButton (funded true (Some steep))) "5"
     = [sell 7 (Some (key Byte.x01)) 0].
Proof. vm_compute. repeat split. Qed.

(** A blocking reason replaces the label and disables the control. *)
Example empty_input_empty_wallet :
  AsyncQtyButton.label (qtyButton (empty_wallet false)) ""
  = "Insufficient funds"
  /\ AsyncQtyButton.isDisabled (qtyButton (empty_wallet false)) "" = true.
Proof. vm_compute. repeat split. Qed.

End Dispatch.

(** * The selection handler of [MintSelect] *)

Section Selection.

Import Solana MintSelect Examples.

Local Open Scope string_scope.

Variable toBase58 : PublicKey -> string.

(** C9. For every selected result that has a mint, the handler invokes
    the change callback with that mint's base-58 string and then closes
    the overlay; for every selected result without a mint (no account,
    or an account without a mint) it makes no call: the change
    callback is not invoked and the overlay stays as it is. *)
Theorem onSelect_spec (t : SearchResult) :
  (forall m, account_mint t = Some m ->
      onSelect toBase58 t = [onChange (toBase58 m); onClose]
      /\ changes (onSelect toBase58 t) = [toBase58 m]
      /\ forall isOpen, isOpen_after isOpen (onSelect toBase58 t) = false)
  /\ (account_mint t = None ->
      onSelect toBase58 t = []
      /\ changes (onSelect toBase58 t) = []
      /\ forall isOpen, isOpen_after isOpen (onSelect toBase58 t) = isOpen).
Proof.
  unfold onSelect. split.
  - intros m ->. repeat split.
  - intros ->. repeat split.
Qed.

(** A result lacks a mint when it has no account or its account has
    none. *)
Lemma account_mint_none (t : SearchResult) :
  account_mint t = None <->
  account t = None \/ exists a, account t = Some a /\ mint a = None.
Proof.
  unfold account_mint. destruct (account t) as [a|].
  - split.
    + intros H. right. now exists a.
    + now intros [H | (a' & [= <-] & H)].
  - split; [now left | reflexivity].
Qed.

End Selection.

Section SelectionRuns.

Import Solana MintSelect Examples.

Local Open Scope string_scope.

Lemma onSelect_spec_witness :
  onSelect base58 found
  = [onChange "11111111111111111111111111111111"; onClose]
  /\ onSelect base58 no_account = []
  /\ isOpen_after true (onSelect base58 no_mint) = true.
Proof.
  split; [|split].
  - apply (proj1 (onSelect_spec base58 found) (key Byte.x00) eq_refl).
  - apply (proj2 (onSelect_spec base58 no_account) eq_refl).
  - apply (proj2 (onSelect_spec base58 no_mint) eq_refl).
Defined.

End SelectionRuns.


(** * [AsyncQtyButton]: the control and its blocking reason *)

Section ButtonFacts.

Import JS BountyDetail BountyView Examples.

Local Open Scope float_scope.
Local Open Scope string_scope.

Lemma truthy_string_iff (s : string) : truthy_string s = true <-> s <> "".
Proof. destruct s; simpl; split; congruence. Qed.

(** X1. Whatever the props and the text of the input: the control is
    disabled exactly when the validation gave a non-empty reason, and
    then the reason is its label; when it is not disabled its label is
    its children; without a [validate] prop it is never disabled. *)
Theorem button_disabled_iff (call : Type) (props : AsyncQtyButton.Props call)
        (qty : string) :
  (AsyncQtyButton.isDisabled props qty = true <->
     exists msg, AsyncQtyButton.validation props qty = Some msg /\ msg <> "")
  /\ (AsyncQtyButton.isDisabled props qty = true ->
      AsyncQtyButton.validation props qty
      = Some (AsyncQtyButton.label props qty))
  /\ (AsyncQtyButton.isDisabled props qty = false ->
      AsyncQtyButton.label props qty = AsyncQtyButton.children props)
  /\ (AsyncQtyButton.validate props = None ->
      AsyncQtyButton.isDisabled props qty = false).
Proof.
  unfold AsyncQtyButton.isDisabled, AsyncQtyButton.label.
  repeat split.
  - destruct (AsyncQtyButton.validation props qty) as [msg|]; simpl;
      [|discriminate].
    destruct (truthy_string msg) eqn:T; [|discriminate].
    intros _. exists msg. split; [reflexivity|]. now apply truthy_string_iff.
  - intros (msg & -> & N). simpl.
    apply truthy_string_iff in N. now rewrite N.
  - destruct (AsyncQtyButton.validation props qty) as [msg|]; simpl;
      [|discriminate].
    now destruct (truthy_string msg).
  - destruct (AsyncQtyButton.validation props qty) as [msg|]; simpl;
      [|reflexivity].
    now destruct (truthy_string msg).
  - intros V. unfold AsyncQtyButton.validation. now rewrite V.
Qed.

Lemma validate_cases (h : Hooks) (q : number) :
  validate h q = None
  \/ validate h q = Some "Insufficient funds"
  \/ validate h q = Some "Connect Wallet".
Proof.
  unfold validate.
  destruct (isWithdraw h); [destruct (pricing h) as [p|]|];
    repeat match goal with
           | |- context [if ?b then _ else _] => destruct b
           end; auto.
Qed.

(** X2. The contribute / withdraw control is enabled exactly when
    [validate] returns [null] on the number of the input's text; a
    reason is one of "Insufficient funds" and "Connect Wallet", and the
    control shows the reason when there is one and the mode's caption
    when there is none. *)
Theorem bounty_button_enabled_iff (h : Hooks) (qty : string) :
  (AsyncQtyButton.isDisabled (qtyButton h) qty = false <->
     validate h (Number qty) = None)
  /\ (validate h (Number qty) = None
      \/ validate h (Number qty) = Some "Insufficient funds"
      \/ validate h (Number qty) = Some "Connect Wallet")
  /\ AsyncQtyButton.label (qtyButton h) qty
     = match validate h (Number qty) with
       | Some reason => reason
       | None => if isWithdraw h then "Withdraw Funds" else "Contribute Funds"
       end.
Proof.
  unfold AsyncQtyButton.isDisabled, AsyncQtyButton.label,
    AsyncQtyButton.validation. simpl.
  destruct (validate_cases h (Number qty)) as [-> | [-> | ->]]; simpl;
    repeat split; auto; discriminate.
Qed.

End ButtonFacts.

(** * What a passed validation lets the action do *)

Section PassedValidation.

Import JS BountyDetail BountyView Examples.

Local Open Scope float_scope.
Local Open Scope string_scope.

(** A number above zero is not below a number below zero. *)
Lemma lt_positive_negative (b q : number) :
  gt b zero = true -> lt q zero = true -> lt b q = false.
Proof.
  unfold gt, lt. rewrite !ltb_spec.
  change (Prim2SF zero) with (S754_zero false).
  destruct (Prim2SF b) as [s|s| |s m e], (Prim2SF q) as [t|t| |t n f];
    unfold SFltb; simpl; try discriminate; try reflexivity;
    destruct s, t; simpl; try discriminate; reflexivity.
Qed.

(** X3. When the validation passes a quantity, what the action then
    asks of the SDK stays within the balance: a [buy] is of the quantity
    itself and, if that is a number, the base balance is at least as
    large; a [sell] is of an amount that, if it is a number, the target
    balance is at least as large as. *)
Theorem passed_amount_within_balance (h : Hooks) (q : number) (c : SdkCall) :
  validate h q = None -> In c (action h q) ->
  match c with
  | buy amount _ _ =>
      amount = q
      /\ (is_nan amount = false ->
          exists b, baseBalance h = Some b /\ (amount <=? b)%float = true)
  | sell amount _ _ =>
      is_nan amount = false ->
      exists b, targetBalance h = Some b /\ (amount <=? b)%float = true
  end.
Proof.
  unfold action, withdraw_pricing, optional_call.
  destruct (isWithdraw h) eqn:W.
  - destruct (pricing h) as [p|] eqn:P; simpl; [|easy].
    rewrite (validate_withdraw_verdict h p q W P).
    destruct (tokenBondingSdk h); simpl; [|easy].
    intros V [<- | []]. now apply verdict_passes with (c := connected h).
  - simpl. rewrite (validate_contribute_verdict h q W).
    destruct (tokenBondingSdk h); simpl; [|easy].
    intros V [<- | []]. split; [reflexivity|].
    now apply verdict_passes with (c := connected h).
Qed.

Lemma passed_amount_within_balance_witness :
  validate (funded true (Some steep)) 5 = None
  /\ In (sell 7 (Some (key Byte.x01)) 0) (action (funded true (Some steep)) 5)
  /\ exists b, targetBalance (funded true (Some steep)) = Some b
               /\ (7 <=? b)%float = true.
Proof.
  split; [reflexivity|]. split; [now left|].
  apply (passed_amount_within_balance (funded true (Some steep)) 5
           (sell 7 (Some (key Byte.x01)) 0) eq_refl (or_introl eq_refl)).
  reflexivity.
Defined.

(** X4. The validation has no lower bound on the quantity: in
    contribute mode, on a connected wallet with a base balance above
    zero, every quantity below zero passes, and the action hands it to
    [buy] as the base amount. *)
Theorem negative_quantity_passes (h : Hooks) (b q : number) :
  isWithdraw h = false -> connected h = true ->
  baseBalance h = Some b -> gt b zero = true -> lt q zero = true ->
  validate h q = None
  /\ (tokenBondingSdk h = true -> action h q = [buy q (bondingKey h) 0]).
Proof.
  intros W C B Pb Nq. split.
  - rewrite (validate_contribute_verdict h q W), B, C.
    unfold verdict, not_number, truthy_opt, ToNumber.
    now rewrite (positive_truthy b Pb), (lt_positive_negative b q Pb Nq).
  - intros S. unfold action, withdraw_pricing, optional_call.
    now rewrite W, S.
Qed.

Lemma negative_quantity_passes_witness :
  lt (Number "-5") zero = true
  /\ validate (funded false None) (Number "-5") = None
  /\ action (funded false None) (Number "-5")
     = [buy (-5) (Some (key Byte.x01)) 0].
Proof.
  split; [reflexivity|].
  split;
    [ apply (negative_quantity_passes (funded false None) 100 (Number "-5")
               eq_refl eq_refl eq_refl eq_refl eq_refl)
    | apply (proj2 (negative_quantity_passes (funded false None) 100
                      (Number "-5") eq_refl eq_refl eq_refl eq_refl eq_refl));
      reflexivity ].
Defined.

(** X5. The action makes at most one call on the SDK; it makes none
    exactly when the SDK handle is not there, or in withdraw mode without
    a pricing object; the call it makes names the bonding record's key,
    or nothing when there is no record. *)
Theorem action_calls (h : Hooks) (q : number) :
  (List.length (action h q) <= 1)%nat
  /\ (action h q = [] <->
      tokenBondingSdk h = false \/ (isWithdraw h = true /\ pricing h = None))
  /\ (forall c, In c (action h q) -> bonding_of c = bondingKey h).
Proof.
  unfold action, withdraw_pricing, optional_call.
  destruct (isWithdraw h), (pricing h) as [p|], (tokenBondingSdk h); simpl;
    repeat split; auto; try discriminate;
    try (intros [H | [H H']]; discriminate);
    try (intros c [<- | []]; reflexivity); try (intros c []).
Qed.

(** X6. "Insufficient funds" comes first: when the balance the mode
    looks at is absent, that is the answer whether or not a wallet is
    connected; "Connect Wallet" is answered only for a wallet that is
    not connected and whose balance is there and is neither zero nor
    [NaN]. *)
Theorem insufficient_before_connect (h : Hooks) (q : number) :
  (isWithdraw h = false -> baseBalance h = None ->
   validate h q = Some "Insufficient funds")
  /\ (isWithdraw h = true -> pricing h <> None -> targetBalance h = None ->
      validate h q = Some "Insufficient funds")
  /\ (validate h q = Some "Connect Wallet" ->
      connected h = false
      /\ exists b, (if isWithdraw h then targetBalance h else baseBalance h)
                   = Some b
                   /\ truthy b = true).
Proof.
  split; [|split; [|split]].
  - intros W B. rewrite (validate_contribute_verdict h q W), B. reflexivity.
  - intros W P B. destruct (pricing h) as [p|] eqn:E; [|easy].
    rewrite (validate_withdraw_verdict h p q W E), B. reflexivity.
  - revert H. unfold validate.
    destruct (isWithdraw h); [destruct (pricing h) as [p|]; [|easy]|];
      (destruct (_ || _); [easy|]); now destruct (connected h).
  - revert H. unfold validate, not_number, truthy_opt.
    destruct (isWithdraw h); [destruct (pricing h) as [p|]; [|easy]|].
    + destruct (targetBalance h) as [b|]; simpl; [|easy].
      destruct (truthy b) eqn:T; simpl; [|easy]. intros _. now exists b.
    + destruct (baseBalance h) as [b|]; simpl; [|easy].
      destruct (truthy b) eqn:T; simpl; [|easy]. intros _. now exists b.
Qed.

Lemma insufficient_before_connect_witness :
  connected disconnected_loading = false
  /\ validate (onToggle disconnected_loading) 1 = Some "Insufficient funds".
Proof.
  split; [reflexivity|].
  apply (proj1 (insufficient_before_connect (onToggle disconnected_loading) 1));
    reflexivity.
Defined.

End PassedValidation.

(** * The mode link, the warning and the sections of the detail *)

Section DetailFacts.

Import JS Solana BountyDetail BountyView Examples Samples.

Local Open Scope float_scope.
Local Open Scope string_scope.

(** X7. A click on the link under the button moves the validation to
    the other branch: from contribute mode to the withdraw test on the
    target balance (or to no test when there is no pricing object), from
    withdraw mode to the contribute test on the base balance.  After the
    click the button shows what the link said before it exactly when
    that validation passes the input, and the blocking reason otherwise;
    the link then says what the [children] of the button were.  A second
    click restores the render, and a click changes neither [fundsUsed]
    nor [bountyClosed]. *)
Theorem toggle_spec (toNumber : Z -> MintInfo -> number) (h : Hooks) :
  (forall q, isWithdraw h = false ->
     validate (onToggle h) q
     = match pricing h with
       | Some p =>
           verdict (targetBalance h) (neg (buyWithBaseAmount p (neg q)))
                   (connected h)
       | None => None
       end)
  /\ (forall q, isWithdraw h = true ->
      validate (onToggle h) q = verdict (baseBalance h) q (connected h))
  /\ (forall qty,
      AsyncQtyButton.label (qtyButton (onToggle h)) qty
      = match validate (onToggle h) (Number qty) with
        | Some reason => reason
        | None => toggleLabel h
        end)
  /\ toggleLabel (onToggle h) = AsyncQtyButton.children (qtyButton h)
  /\ toggleLabel h <> AsyncQtyButton.children (qtyButton h)
  /\ onToggle (onToggle h) = h
  /\ fundsUsed toNumber (onToggle h) = fundsUsed toNumber h
  /\ bountyClosed (onToggle h) = bountyClosed h.
Proof.
  split; [|split; [|split]].
  - intros q W. unfold validate, onToggle. simpl. now rewrite W.
  - intros q W. unfold validate, onToggle. simpl. now rewrite W.
  - intros qty.
    unfold AsyncQtyButton.label, AsyncQtyButton.validation. simpl.
    destruct (validate_cases (onToggle h) (Number qty)) as [-> | [-> | ->]];
      simpl; try reflexivity.
    unfold toggleLabel. now destruct (isWithdraw h).
  - destruct h as [tb bl c wk tm p sdk bb tbal ra w].
    unfold onToggle, toggleLabel. simpl.
    rewrite negb_involutive. destruct w; simpl; repeat split; discriminate.
Qed.

Lemma toggle_spec_witness :
  AsyncQtyButton.label (qtyButton (onToggle (funded false (Some steep)))) "5"
  = "Withdraw Funds"
  /\ AsyncQtyButton.label (qtyButton (onToggle (empty_wallet false))) ""
     = "Insufficient funds"
  /\ validate (onToggle (funded true (Some steep))) 500
     = Some "Insufficient funds".
Proof.
  split; [|split].
  - rewrite (proj1 (proj2 (proj2
               (toggle_spec wholeTokens (funded false (Some steep))))) "5").
    reflexivity.
  - rewrite (proj1 (proj2 (proj2
               (toggle_spec wholeTokens (empty_wallet false)))) "").
    reflexivity.
  - rewrite (proj1 (proj2 (toggle_spec wholeTokens
                             (funded true (Some steep)))) 500 eq_refl).
    reflexivity.
Defined.

(** X8. The warning that funds have been used shows exactly when the
    target mint, the pricing object and the reserve amount are all
    there and the supply as a number minus the reserve is above zero. *)
Theorem fundsHaveBeenUsed_needs_all (toNumber : Z -> MintInfo -> number)
        (h : Hooks) :
  fundsHaveBeenUsed toNumber h = true <->
  exists mint p reserve,
    targetMintInfo h = Some mint /\ pricing h = Some p
    /\ reserveAmount h = Some reserve
    /\ gt (sub (toNumber (supply mint) mint) reserve) zero = true.
Proof.
  unfold fundsHaveBeenUsed, fundsUsed, fundsHaveBeenUsed_of, not_number,
    truthy_opt, ToNumber.
  split.
  - destruct (targetMintInfo h) as [mint|]; [|discriminate].
    destruct (pricing h) as [p|]; [|discriminate].
    destruct (reserveAmount h) as [reserve|]; [|discriminate].
    intros H. apply andb_true_iff in H. exists mint, p, reserve.
    now repeat split.
  - intros (mint & p & reserve & -> & -> & -> & H).
    now rewrite negb_involutive, (positive_truthy _ H), H.
Qed.

(** X9. The disburse section is rendered exactly when a wallet key is
    there, a bonding record is there, the record names a reserve
    authority and that authority equals the wallet key; it is then given
    the record's key.  So it never shows without a wallet, nor on a
    closed bounty. *)
Theorem disburse_iff_admin (equals : PublicKey -> PublicKey -> bool)
        (h : Hooks) :
  (disburseFunds h equals <> None <->
     exists k tb authority,
       walletKey h = Some k /\ tokenBonding h = Some tb
       /\ reserveAuthority tb = Some authority
       /\ equals authority k = true)
  /\ (forall shown, disburseFunds h equals = Some shown ->
      exists tb, tokenBonding h = Some tb /\ shown = Some (publicKey tb))
  /\ (walletKey h = None -> disburseFunds h equals = None)
  /\ (bountyClosed h = true -> disburseFunds h equals = None).
Proof.
  unfold disburseFunds, isAdmin, bountyClosed, bondingKey, present,
    truthy_opt.
  destruct (tokenBonding h) as [tb|]; simpl.
  - destruct (walletKey h) as [k|]; simpl.
    + destruct (reserveAuthority tb) as [a|] eqn:A; simpl.
      * destruct (equals a k) eqn:E; simpl; repeat split; try easy.
        -- intros _. exists k, tb, a. now repeat split.
        -- intros shown [= <-]. now exists tb.
        -- intros (k' & tb' & a' & [= <-] & [= <-] & A' & E').
           rewrite A in A'. injection A' as <-. congruence.
      * repeat split; try easy; try congruence.
        intros (k' & tb' & a' & _ & [= <-] & A' & _). congruence.
    + repeat split; try easy; try congruence.
      intros (k' & tb' & a' & W & _). discriminate W.
  - destruct (walletKey h), (bondingLoading h); simpl; repeat split;
      try easy; try congruence;
      intros (k' & tb' & a' & _ & T & _); discriminate T.
Qed.

Lemma disburse_iff_admin_witness :
  disburseFunds authority_wallet same_key = Some (Some (key Byte.x01))
  /\ disburseFunds (funded false None) same_key = None
  /\ disburseFunds closed_bounty same_key = None.
Proof.
  split; [reflexivity|]. split; [reflexivity|].
  apply (proj2 (proj2 (proj2 (disburse_iff_admin same_key closed_bounty)))).
  reflexivity.
Defined.

(** X10. The burn button is rendered exactly on a closed bounty (no
    record, loading over) whose view was given a mint key, and carries
    that key; it is never rendered together with the disburse section. *)
Theorem burn_only_when_closed (equals : PublicKey -> PublicKey -> bool)
        (props : Props) (h : Hooks) :
  (forall k, burnButton props h = Some k <->
     tokenBonding h = None /\ bondingLoading h = false
     /\ mintKey props = Some k)
  /\ (burnButton props h <> None -> disburseFunds h equals = None).
Proof.
  unfold burnButton, disburseFunds, bountyClosed, present, truthy_opt.
  destruct (tokenBonding h) as [tb|], (bondingLoading h); simpl;
    repeat split; try easy; intros; try tauto; now destruct H.
Qed.

(** X17. The "My Contributions" card has an amount exactly when the
    target balance is defined and the pricing object is there, and the
    amount is [sellTargetAmount] of the balance.  A target balance of
    zero is priced like any other, while the withdraw validation answers
    "Insufficient funds" for it whatever the quantity. *)
Theorem myContributions_spec (h : Hooks) :
  (forall amount, myContributions h = Some amount <->
     exists balance p, targetBalance h = Some balance /\ pricing h = Some p
                       /\ amount = sellTargetAmount p balance)
  /\ (forall balance p q,
        targetBalance h = Some balance -> pricing h = Some p ->
        truthy balance = false -> isWithdraw h = true ->
        myContributions h = Some (sellTargetAmount p balance)
        /\ validate h q = Some "Insufficient funds").
Proof.
  unfold myContributions. split.
  - intros amount.
    destruct (targetBalance h) as [b|], (pricing h) as [p|]; split;
      try easy.
    + intros [= <-]. now exists b, p.
    + intros (b' & p' & [= <-] & [= <-] & ->). reflexivity.
    + intros (b' & p' & _ & P & _). discriminate P.
    + intros (b' & p' & B & _). discriminate B.
    + intros (b' & p' & B & _). discriminate B.
  - intros balance p q B P T W.
    rewrite (validate_withdraw_verdict h p q W P), B, P.
    split; [reflexivity|].
    unfold verdict, not_number, truthy_opt. now rewrite T.
Qed.

Lemma myContributions_spec_witness :
  myContributions (empty_wallet true) = Some 0
  /\ validate (empty_wallet true) 1 = Some "Insufficient funds".
Proof.
  apply (proj2 (myContributions_spec (empty_wallet true)) 0 flat 1);
    reflexivity.
Defined.

End DetailFacts.

(** * The early returns: not found, waiting, or the detail *)

Section ScreenFacts.

Import JS Solana BountyDetail BountyView Examples Samples.

Local Open Scope string_scope.

Lemma not_truthy_string (s : string) : truthy_string s = false <-> s = "".
Proof. destruct s; simpl; split; congruence. Qed.

Lemma or_string_given (x : option string) (d : string) :
  d <> "" -> or_string x d <> "".
Proof.
  unfold or_string. destruct x as [s|]; [|easy].
  destruct (truthy_string s) eqn:T; [|easy].
  intros _. now apply truthy_string_iff.
Qed.

Lemma dataMissing_iff (props : Props) (meta : Metadata) :
  dataMissing props meta = true <->
  shownName props meta = "" /\ shownImage props meta = ""
  /\ shownDescription props meta = "".
Proof.
  unfold dataMissing.
  rewrite !andb_true_iff, !negb_true_iff, !not_truthy_string. tauto.
Qed.

(** X11. A view that was given a non-empty name, image or description
    always renders the detail, whatever the metadata hooks return.
    "Not found" is rendered exactly when the shown name, image and
    description are all empty and the base mint's metadata is no longer
    loading; the spinner exactly when they are all empty and it still
    is.  A shown string is the metadata's when that is non-empty, and the
    prop otherwise. *)
Theorem screen_spec (props : Props) (meta : Metadata) :
  (name props <> "" \/ image props <> "" \/ description props <> "" ->
   screen props meta = Detail)
  /\ (screen props meta = NotFound <->
      (shownName props meta = "" /\ shownImage props meta = ""
       /\ shownDescription props meta = "")
      /\ metadataLoading meta = false)
  /\ (screen props meta = Spinner <->
      (shownName props meta = "" /\ shownImage props meta = ""
       /\ shownDescription props meta = "")
      /\ metadataLoading meta = true)
  /\ (forall n, targetName meta = Some n -> n <> "" ->
      shownName props meta = n)
  /\ (targetName meta = None \/ targetName meta = Some "" ->
      shownName props meta = name props).
Proof.
  split; [|split; [|split; [|split]]].
  - intros H.
    assert (dataMissing props meta = false) as M.
    { destruct (dataMissing props meta) eqn:M; [|reflexivity].
      apply dataMissing_iff in M. destruct M as (N & I & D).
      destruct H as [H | [H | H]];
        [ apply (or_string_given (targetName meta)) in H
        | apply (or_string_given (targetImage meta)) in H
        | apply (or_string_given
                   (match targetData meta with
                    | Some d => data_description d
                    | None => None
                    end)) in H ]; contradiction. }
    unfold screen. rewrite M. now rewrite andb_false_r.
  - rewrite <- dataMissing_iff. unfold screen.
    destruct (dataMissing props meta), (metadataLoading meta); simpl;
      split; try easy; now intros [].
  - rewrite <- dataMissing_iff. unfold screen.
    destruct (dataMissing props meta), (metadataLoading meta); simpl;
      split; try easy; now intros [].
  - intros n E N. unfold shownName, or_string. rewrite E.
    apply truthy_string_iff in N. now rewrite N.
  - unfold shownName, or_string. now intros [-> | ->].
Qed.

Lemma screen_spec_witness :
  screen named (unknown true) = Detail
  /\ screen bare (unknown true) = Spinner
  /\ screen bare (unknown false) = NotFound
  /\ shownName named loaded = "Indexer bounty".
Proof.
  split.
  - apply (proj1 (screen_spec named (unknown true))). left. discriminate.
  - repeat split.
Defined.

End ScreenFacts.

(** * The attributes of the target token *)

Section AttributeFacts.

Import JS Solana BountyDetail BountyView Examples Samples.

Local Open Scope string_scope.







End AttributeFacts.

(** * The overlay of [MintSelect] through its events *)

Section OverlayFacts.

Import Solana MintSelect MintSelectEvents Examples.

Local Open Scope string_scope.

Variable toBase58 : PublicKey -> string.

(** X14. The Wallet button is in the render only while the overlay is
    closed, so its click always opens the overlay: the branch of its
    handler that would close it never runs. *)
Theorem wallet_click_opens (isOpen : bool) :
  rendered isOpen WalletClick = true ->
  handle toBase58 isOpen WalletClick = [onOpen]
  /\ step toBase58 isOpen WalletClick = true.
Proof.
  unfold step. destruct isOpen; simpl; [discriminate|]. now split.
Qed.

Lemma escFunction_cases (key : string) :
  (key = "Escape" /\ escFunction key = [onClose])
  \/ (key <> "Escape" /\ escFunction key = []).
Proof.
  unfold escFunction. destruct (String.eqb_spec key "Escape"); auto.
Qed.

(** X15. One event changes [isOpen] exactly in these cases: the overlay
    is closed and the event is a click on the Wallet button (it opens);
    or the overlay is open and the event is a keydown of Escape or the
    selection of a result that has a mint (it closes).  Typing, other
    keys and results without a mint never change it. *)
Theorem overlay_changes_iff (isOpen : bool) (e : Event) :
  step toBase58 isOpen e <> isOpen <->
  (isOpen = false /\ e = WalletClick)
  \/ (isOpen = true
      /\ (e = KeyDown "Escape"
          \/ exists t m, e = Selected t /\ account_mint t = Some m)).
Proof.
  unfold step. split.
  - destruct e as [text| |key|t], isOpen; simpl; try congruence.
    + intros _. now left.
    + destruct (escFunction_cases key) as [[-> ->] | [_ ->]]; simpl;
        [|congruence].
      intros _. right. split; [reflexivity|]. now left.
    + destruct (escFunction_cases key) as [[_ ->] | [_ ->]]; simpl;
        congruence.
    + unfold onSelect. destruct (account_mint t) as [m|] eqn:M; simpl;
        [|congruence].
      intros _. right. split; [reflexivity|]. right. now exists t, m.
  - intros [[-> ->] | [-> [-> | (t & m & -> & M)]]]; simpl.
    + discriminate.
    + discriminate.
    + unfold onSelect. rewrite M. simpl. discriminate.
Qed.

(** X16. Along any sequence of events, every value the [onChange] prop
    receives is either a text typed into the input or the base-58 string
    of the mint of a selected result: Escape, the Wallet button and
    results without a mint report nothing. *)
Theorem reported_values (events : list Event) (isOpen : bool) (s : string) :
  In s (reported toBase58 isOpen events) ->
  In (Typed s) events
  \/ exists t m, In (Selected t) events /\ account_mint t = Some m
                 /\ s = toBase58 m.
Proof.
  revert isOpen. induction events as [|e events IH]; intros isOpen; simpl.
  - intros [].
  - intros H. apply in_app_or in H. destruct H as [H | H].
    + destruct (rendered isOpen e); [|destruct H].
      destruct e as [text| |key|t]; simpl in H.
      * destruct H as [<- | []]. left. now left.
      * now destruct isOpen.
      * destruct (escFunction_cases key) as [[_ E] | [_ E]];
          rewrite E in H; destruct H.
      * unfold onSelect in H. destruct (account_mint t) as [m|] eqn:M.
        -- destruct H as [<- | []]. right. exists t, m. auto.
        -- destruct H.
    + destruct (IH _ H) as [T | (t & m & T & M & E)].
      * left. now right.
      * right. exists t, m. auto.
Qed.

Lemma step_opens (isOpen : bool) (e : Event) :
  step toBase58 isOpen e = true -> isOpen = true \/ e = WalletClick.
Proof.
  unfold step. destruct e as [text| |key|t], isOpen; simpl; auto.
  destruct (escFunction_cases key) as [[_ ->] | [_ ->]]; simpl; auto.
Qed.

Lemma fold_step_opens (events : list Event) (isOpen : bool) :
  fold_left (step toBase58) events isOpen = true ->
  isOpen = true \/ In WalletClick events.
Proof.
  revert isOpen. induction events as [|e events IH]; intros isOpen; simpl.
  - auto.
  - intros H. destruct (IH _ H) as [S | I]; [|auto].
    destruct (step_opens isOpen e S) as [O | ->]; auto.
Qed.

(** X18. From the first render, the overlay is open after a sequence of
    events only if the Wallet button was clicked somewhere in it; and
    after a sequence that ends with a keydown of Escape it is closed. *)
Theorem open_needs_wallet_click (events : list Event) :
  (run toBase58 events = true -> In WalletClick events)
  /\ run toBase58 (events ++ [KeyDown "Escape"]) = false.
Proof.
  unfold run. split.
  - intros H. now destruct (fold_step_opens events false H).
  - rewrite fold_left_app. simpl. unfold step. simpl.
    now destruct (fold_left (step toBase58) events false).
Qed.

End OverlayFacts.

Section OverlayRuns.

Import Solana MintSelect MintSelectEvents Examples.

Local Open Scope string_scope.

Lemma wallet_click_opens_witness :
  rendered false WalletClick = true
  /\ step base58 false WalletClick = true.
Proof.
  split; [reflexivity|].
  apply (proj2 (wallet_click_opens base58 false eq_refl)).
Defined.

Lemma reported_values_witness :
  reported base58 false
    [Typed "So1"; WalletClick; Selected no_mint; Selected found;
     KeyDown "Escape"]
  = ["So1"; "11111111111111111111111111111111"]
  /\ (In (Typed "11111111111111111111111111111111")
        [Typed "So1"; WalletClick; Selected no_mint; Selected found;
         KeyDown "Escape"]
      \/ exists t m,
           In (Selected t)
              [Typed "So1"; WalletClick; Selected no_mint; Selected found;
               KeyDown "Escape"]
           /\ account_mint t = Some m
           /\ "11111111111111111111111111111111" = base58 m).
Proof.
  split; [reflexivity|].
  apply (reported_values base58 _ false).
  right. now left.
Defined.

Lemma open_needs_wallet_click_witness :
  run base58 [Typed "So1"; WalletClick; Selected no_mint] = true
  /\ In WalletClick [Typed "So1"; WalletClick; Selected no_mint].
Proof.
  split; [reflexivity|].
  apply (proj1 (open_needs_wallet_click base58
                  [Typed "So1"; WalletClick; Selected no_mint])).
  reflexivity.
Defined.

End OverlayRuns.
